(** * The talker node of beginner_tutorials (src/talker.cpp)

    A shallow embedding of the publisher node: the global [message], the
    service callback [say], the start-up handling of the frequency argument
    and the publishing loop of [main], followed by the properties of the
    node's specification.

    The node is single threaded.  Service requests are queued by roscpp and
    their callback runs only inside [ros::spinOnce()], which the loop calls
    once per iteration after it has published; so one run of the node is
    determined by the command line and by what the environment supplies at
    each iteration: the clock reading and the requests waiting in the queue. *)

From Stdlib Require Import ZArith String Ascii List Bool Lia Floats QArith.
From Stdlib Require Import DecimalString.
From Stdlib Require DecimalPos DecimalZ.
Import ListNotations.

Local Open Scope string_scope.
Local Open Scope Z_scope.

(** ** The C++ [int] *)

Module Int.

Definition INT_MIN : Z := -2147483648.
Definition INT_MAX : Z := 2147483647.
Definition LONG_MIN : Z := -9223372036854775808.
Definition LONG_MAX : Z := 9223372036854775807.

(** The value a 32-bit two's-complement [int] holds after a result [z]
    computed over the integers is stored in it.  (Overflow of a signed
    [++] is undefined in ISO C++; this is what the compilers ROS builds
    with produce.) *)
Definition wrap (z : Z) : Z := (z + 2147483648) mod 4294967296 - 2147483648.

Definition in_range (z : Z) : Prop := INT_MIN <= z <= INT_MAX.

(** [++count] *)
Definition incr (count : Z) : Z := wrap (count + 1).

(** [ss << count]: the decimal digits, after a minus sign when negative. *)
Definition to_string (z : Z) : string := NilZero.string_of_int (Z.to_int z).

End Int.

(** ** [atoi] of the C library

    [atoi(s)] is [(int) strtol(s, NULL, 10)]: white space is skipped, one
    sign is read, then decimal digits as long as there are some; with no
    digit the result is 0.  [strtol] saturates at the bounds of [long]. *)

Module Libc.

Definition isspace (c : ascii) : bool :=
  match c with
  | " "%char | "009"%char | "010"%char | "011"%char | "012"%char | "013"%char => true
  | _ => false
  end.

Definition digit (c : ascii) : option Z :=
  let n := Z.of_nat (nat_of_ascii c) in
  if (48 <=? n) && (n <=? 57) then Some (n - 48) else None.

Fixpoint skip_space (s : string) : string :=
  match s with
  | String c s' => if isspace c then skip_space s' else s
  | EmptyString => s
  end.

Fixpoint digits (acc : Z) (s : string) : Z :=
  match s with
  | String c s' =>
      match digit c with
      | Some d => digits (10 * acc + d) s'
      | None => acc
      end
  | EmptyString => acc
  end.

Definition saturate (z : Z) : Z :=
  if z <? Int.LONG_MIN then Int.LONG_MIN
  else if Int.LONG_MAX <? z then Int.LONG_MAX
  else z.

(** The optional sign: is it a minus, and what follows it. *)
Definition sign (s : string) : bool * string :=
  match s with
  | String c s' =>
      if Ascii.eqb c "-" then (true, s')
      else if Ascii.eqb c "+" then (false, s')
      else (false, s)
  | EmptyString => (false, s)
  end.

Definition strtol (s : string) : Z :=
  let (minus, s') := sign (skip_space s) in
  let n := digits 0 s' in
  saturate (if minus then - n else n).

Definition atoi (s : string) : Z := Int.wrap (strtol s).

End Libc.

(** ** Messages, notices and the node's world *)

(** rosconsole's severity levels. *)
Inductive Level : Type := Debug | Info | Warn | Error | Fatal.

Record Notice : Type := { level : Level; text : string }.

(** The service type [beginner_tutorials/modifyTalkerString]. *)
Record Request : Type := { inputStr : string }.
Record Response : Type := { modifiedStr : string }.

(** [ros::Time]. *)
Record Time : Type := { sec : Z; nsec : Z }.

Record Vector3 : Type := { x : float; y : float; z : float }.

Section Talker.

(** [tf::Quaternion] and its [setRPY] belong to the tf library: the node
    is verified for whatever they are. *)
Context {Quaternion : Type}.
Variable setRPY : float -> float -> float -> Quaternion.

Record Transform : Type := { origin : Vector3; rotation : Quaternion }.

Record StampedTransform : Type :=
  { transform_ : Transform;
    stamp_ : Time;
    frame_id_ : string;
    child_frame_id_ : string }.

(** Everything the node reads or writes outside [main]'s locals: the
    global [message], and what has left the node so far, oldest first. *)
Record World : Type :=
  { message : string;                    (* the global std::string *)
    rosout : list Notice;                (* ROS_*_STREAM and ROS_INFO *)
    chatter : list string;               (* data of the messages published *)
    tf_out : list StampedTransform;      (* transforms broadcast *)
    replies : list (bool * Response) }.  (* service results sent back *)

(** The state before [main] starts: line 40. *)
Definition initial_world : World :=
  {| message := "Written By Aman Virmani";
     rosout := []; chatter := []; tf_out := []; replies := [] |}.

(** *** Commands on the world *)

Definition M (A : Type) : Type := World -> A * World.

Definition ret {A} (a : A) : M A := fun w => (a, w).

Definition bind {A B} (c : M A) (k : A -> M B) : M B :=
  fun w => let (a, w') := c w in k a w'.

Notation "x <- c ;; k" := (bind c (fun x => k))
  (at level 61, c at next level, right associativity).
Notation "c ;; k" := (bind c (fun _ => k))
  (at level 61, right associativity).

Definition get_message : M string := fun w => (message w, w).

Definition set_message (s : string) : M unit := fun w =>
  (tt, {| message := s; rosout := rosout w; chatter := chatter w;
          tf_out := tf_out w; replies := replies w |}).

Definition ROS_LOG (l : Level) (s : string) : M unit := fun w =>
  (tt, {| message := message w;
          rosout := rosout w ++ [{| level := l; text := s |}];
          chatter := chatter w; tf_out := tf_out w; replies := replies w |}).

Definition publish (data : string) : M unit := fun w =>
  (tt, {| message := message w; rosout := rosout w;
          chatter := chatter w ++ [data];
          tf_out := tf_out w; replies := replies w |}).

Definition sendTransform (t : StampedTransform) : M unit := fun w =>
  (tt, {| message := message w; rosout := rosout w; chatter := chatter w;
          tf_out := tf_out w ++ [t]; replies := replies w |}).

Definition reply (r : bool * Response) : M unit := fun w =>
  (tt, {| message := message w; rosout := rosout w; chatter := chatter w;
          tf_out := tf_out w; replies := replies w ++ [r] |}).

(** *** The service callback: lines 48-54

    [res] is the caller's response object, passed by reference; its one
    field is assigned, and the callback's [bool] comes with it. *)
Definition say (req : Request) (res : Response) : M (bool * Response) :=
  let res := {| modifiedStr := inputStr req |} in
  set_message (modifiedStr res) ;;
  ROS_LOG Info "Default message by talker changed to: " ;;
  ret (true, res).

(** *** Start-up: lines 84-108 *)

(** Lines 85-90.  [argv] is the command line as [ros::init] leaves it,
    the program name first; [argc] is its length. *)
Definition requested_frequency (argv : list string) : Z :=
  let talkerFrequency := 10 in
  if Z.of_nat (length argv) >? 1
  then Libc.atoi (nth 1 argv "")
  else talkerFrequency.

(** Lines 92-108: the value of [talkerFrequency] afterwards. *)
Definition check_frequency (talkerFrequency : Z) : M Z :=
  if talkerFrequency >? 0 then
    ROS_LOG Debug ("Talker publishing at frequency: "
                   ++ Int.to_string talkerFrequency) ;;
    ret talkerFrequency
  else if talkerFrequency <? 0 then
    ROS_LOG Fatal "Talker expects positive value of frequency" ;;
    ROS_LOG Warn "Talker frequency set to default value of 10Hz" ;;
    ret 10
  else if talkerFrequency =? 0 then
    ROS_LOG Error "Talker expects non-zero frequency" ;;
    ROS_LOG Warn "Talker frequency set to default value of 10Hz" ;;
    ret 10
  else
    ret talkerFrequency.

(** [ros::Rate loop_rate(talkerFrequency)] keeps the cycle time
    [1.0 / frequency], here as an exact rational number of seconds. *)
Record Rate : Type := { expected_cycle_time : Q }.

Definition Rate_of (frequency : Z) : Rate :=
  {| expected_cycle_time := (1 / inject_Z frequency)%Q |}.

(** *** The loop: lines 144-180 *)

(** What the environment supplies to one iteration: the reading of
    [ros::Time::now()] and the requests waiting when [ros::spinOnce()]
    runs, in the order of their delivery. *)
Record Spin : Type := { now : Time; pending : list Request }.

(** [ros::spinOnce()]: each waiting request is handed to [say] with a
    fresh response, and the result goes back to its caller. *)
Fixpoint spinOnce (reqs : list Request) : M unit :=
  match reqs with
  | [] => ret tt
  | req :: reqs' =>
      r <- say req {| modifiedStr := "" |} ;;
      reply r ;;
      spinOnce reqs'
  end.

(** [ROS_INFO("%s", s.c_str())] prints [s] up to its first NUL. *)
Fixpoint c_str (s : string) : string :=
  match s with
  | String c s' => if Ascii.eqb c Ascii.zero then "" else String c (c_str s')
  | EmptyString => ""
  end.

(** The locals of [main] that live across iterations. *)
Record Locals : Type := { count : Z; transform : Transform }.

(** One pass through the body of the [while]: lines 149-179. *)
Definition iteration (l : Locals) (e : Spin) : M Locals :=
  message <- get_message ;;
  let data := (Int.to_string (count l) ++ " " ++ message)%string in
  ROS_LOG Info (c_str data) ;;
  publish data ;;
  (* transform.setOrigin(tf::Vector3(0.0, 2.0, 0.0)) *)
  let transform :=
    {| origin := {| x := 0%float; y := 2%float; z := 0%float |};
       rotation := rotation (transform l) |} in
  let q := setRPY 0%float 0%float 1%float in
  (* transform.setRotation(q) *)
  let transform := {| origin := origin transform; rotation := q |} in
  sendTransform {| transform_ := transform; stamp_ := now e;
                   frame_id_ := "world"; child_frame_id_ := "talk" |} ;;
  spinOnce (pending e) ;;
  (* loop_rate.sleep() *)
  ret {| count := Int.incr (count l); transform := transform |}.

(** The [while (ros::ok())]: one element of [env] for every time
    [ros::ok()] holds, then it fails. *)
Fixpoint loop (l : Locals) (env : list Spin) : M Locals :=
  match env with
  | [] => ret l
  | e :: env' => l' <- iteration l e ;; loop l' env'
  end.

(** [main], given the contents of the uninitialised [tf::Transform] of
    line 81. *)
Definition main (argv : list string) (transform : Transform)
    (env : list Spin) : M Z :=
  talkerFrequency <- check_frequency (requested_frequency argv) ;;
  let loop_rate := Rate_of talkerFrequency in
  loop {| count := 0; transform := transform |} env ;;
  ret 0.

End Talker.

Arguments World : clear implicits.
Arguments Transform : clear implicits.
Arguments StampedTransform : clear implicits.
Arguments Locals : clear implicits.
Arguments M : clear implicits.

(** ** What a run shows

    Observations of a run, used to state the properties below. *)

(** The texts written into the global [message] before iteration [T]
    begins: the requests served by the [spinOnce] of the iterations
    before it, in the order served. *)
Definition writes_before (env : list Spin) (T : nat) : list string :=
  map inputStr (concat (map pending (firstn T env))).

(** An iteration in which no request is waiting. *)
Definition idle (t : Time) : Spin := {| now := t; pending := [] |}.

(** What the service sends back to the caller of [req]. *)
Definition answer (req : Request) : bool * Response :=
  (true, {| modifiedStr := inputStr req |}).

(** The notice [say] leaves. *)
Definition changed : Notice :=
  {| level := Info; text := "Default message by talker changed to: " |}.

(** The text of the message published at [count] from [message]. *)
Definition composed (count : Z) (message : string) : string :=
  (Int.to_string count ++ " " ++ message)%string.

(** The texts a run of the loop over [env] publishes, from the counter [c]
    and the message [m] it starts with. *)
Fixpoint texts (c : Z) (m : string) (env : list Spin) : list string :=
  match env with
  | [] => []
  | e :: env' =>
      composed c m :: texts (Int.incr c) (last (map inputStr (pending e)) m) env'
  end.

(** The transform the loop builds, stamped [t]. *)
Definition world_to_talk {Quaternion : Type}
    (setRPY : float -> float -> float -> Quaternion) (t : Time)
    : StampedTransform Quaternion :=
  {| transform_ :=
       {| origin := {| x := 0%float; y := 2%float; z := 0%float |};
          rotation := setRPY 0%float 0%float 1%float |};
     stamp_ := t; frame_id_ := "world"; child_frame_id_ := "talk" |}.

(** The exact period of a loop at [f] Hz, in seconds. *)
Definition period (f : Z) : Q := expected_cycle_time (Rate_of f).

(** Concrete runs below take Euler angles for tf's quaternion. *)
Record Euler : Type := { roll : float; pitch : float; yaw : float }.

Definition epoch : Time := {| sec := 0; nsec := 0 |}.

(** Some contents for the transform that line 81 leaves uninitialised. *)
Definition garbage : Transform Euler :=
  {| origin := {| x := 7%float; y := 7%float; z := 7%float |};
     rotation := Build_Euler 7%float 7%float 7%float |}.

(** A run in which two calls, "a" then "b", are served by the first
    iteration's [spinOnce], followed by a quiet iteration. *)
Definition two_writes : list Spin :=
  [ {| now := epoch;
       pending := [ {| inputStr := "a" |}; {| inputStr := "b" |} ] |};
    {| now := epoch; pending := [] |} ].

(** The start of the loop in [main]. *)
Definition start {Quaternion : Type} (t : Transform Quaternion)
    : Locals Quaternion :=
  {| count := 0; transform := t |}.

(** The requests a run serves, in the order served. *)
Definition served (env : list Spin) : list Request := concat (map pending env).

(** Does the character [c] occur in [s]? *)
Fixpoint contains (c : ascii) (s : string) : bool :=
  match s with
  | String a s' => Ascii.eqb a c || contains c s'
  | EmptyString => false
  end.

(** Does [s] start with a decimal digit? *)
Definition starts_with_digit (s : string) : bool :=
  match s with
  | String c _ => match Libc.digit c with Some _ => true | None => false end
  | EmptyString => false
  end.

(** Is [s] made of white space only? *)
Fixpoint all_space (s : string) : bool :=
  match s with
  | String c s' => Libc.isspace c && all_space s'
  | EmptyString => true
  end.

(** The texts written into the global [message] while iteration [T]
    runs: by the requests its [spinOnce] serves, after it has published.
    (A request delivered later, during [loop_rate.sleep()], waits in the
    queue: its write belongs to iteration [T + 1].) *)
Definition writes_during (env : list Spin) (T : nat) : list string :=
  match nth_error env T with
  | Some e => map inputStr (pending e)
  | None => []
  end.

(** An argument, after its leading white space, in which [strtol] finds
    no number: it is empty, or starts with a character that is neither
    white space, nor a sign, nor a digit, or it is a sign that no digit
    follows. *)
Inductive no_number : string -> Prop :=
| no_number_end : no_number ""
| no_number_char (c : ascii) (s : string) :
    Libc.isspace c = false -> Libc.digit c = None ->
    c <> "-"%char -> c <> "+"%char ->
    no_number (String c s)
| no_number_sign (c : ascii) (s : string) :
    c = "-"%char \/ c = "+"%char -> starts_with_digit s = false ->
    no_number (String c s).

(** Contents for a second transform object, a second clock reading and a
    world with some history, for runs that differ from the default one. *)
Definition garbage' : Transform Euler :=
  {| origin := {| x := 1%float; y := 2%float; z := 3%float |};
     rotation := Build_Euler 4%float 5%float 6%float |}.

Definition later : Time := {| sec := 42; nsec := 500 |}.

Definition hi_world : World Euler :=
  {| message := "hi";
     rosout := [ {| level := Warn; text := "earlier" |} ];
     chatter := ["older text"]; tf_out := []; replies := [] |}.

(** A run in which "hi" is written during the first iteration. *)
Definition hi_run : list Spin :=
  [ {| now := epoch; pending := [ {| inputStr := "hi" |} ] |};
    {| now := later; pending := [] |} ].

(** * Properties *)

(** ** Arithmetic of [int] *)

Lemma wrap_in_range (z : Z) : Int.in_range (Int.wrap z).
Proof.
  unfold Int.in_range, Int.wrap, Int.INT_MIN, Int.INT_MAX.
  pose proof (Z.mod_pos_bound (z + 2147483648) 4294967296 ltac:(lia)).
  lia.
Qed.

Lemma wrap_small (z : Z) : Int.in_range z -> Int.wrap z = z.
Proof.
  unfold Int.in_range, Int.wrap, Int.INT_MIN, Int.INT_MAX. intros Hz.
  rewrite Z.mod_small; lia.
Qed.

Lemma wrap_add_wrap (a b : Z) : Int.wrap (Int.wrap a + b) = Int.wrap (a + b).
Proof.
  unfold Int.wrap.
  replace ((a + 2147483648) mod 4294967296 - 2147483648 + b + 2147483648)
    with ((a + 2147483648) mod 4294967296 + b) by lia.
  rewrite Zplus_mod_idemp_l. f_equal. f_equal. lia.
Qed.

Lemma wrap_mod (z : Z) : Int.wrap z mod 4294967296 = z mod 4294967296.
Proof.
  unfold Int.wrap.
  rewrite <- Zminus_mod_idemp_l, Z.mod_mod by lia.
  rewrite Zminus_mod_idemp_l. f_equal. lia.
Qed.

Lemma wrap_fixed_iff (z : Z) : Int.wrap z = z <-> Int.in_range z.
Proof.
  split; [intros <-; apply wrap_in_range | apply wrap_small].
Qed.

(** ** How the commands change the world *)

Lemma last_nonempty {A} (l : list A) (a d d' : A) :
  last (a :: l) d = last (a :: l) d'.
Proof.
  revert a; induction l as [|b l IH]; intros a; [reflexivity|].
  change (last (b :: l) d = last (b :: l) d'). apply IH.
Qed.

Lemma last_cons {A} (l : list A) (a d : A) : last (a :: l) d = last l a.
Proof.
  destruct l as [|b l]; [reflexivity|].
  change (last (b :: l) d = last (b :: l) a). apply last_nonempty.
Qed.

Lemma last_app_default {A} (l l' : list A) (d : A) :
  last (l ++ l') d = last l' (last l d).
Proof.
  revert d; induction l as [|a l IH]; intros d; [reflexivity|].
  rewrite <- app_comm_cons, !last_cons. apply IH.
Qed.

Section Runs.

Context {Quaternion : Type}.
Variable setRPY : float -> float -> float -> Quaternion.

Lemma say_run (req : Request) (res : Response) (w : World Quaternion) :
  say req res w =
  (answer req,
   {| message := inputStr req; rosout := rosout w ++ [changed];
      chatter := chatter w; tf_out := tf_out w; replies := replies w |}).
Proof. reflexivity. Qed.

Lemma spinOnce_run (reqs : list Request) (w : World Quaternion) :
  spinOnce reqs w =
  (tt,
   {| message := last (map inputStr reqs) (message w);
      rosout := rosout w ++ map (fun _ => changed) reqs;
      chatter := chatter w; tf_out := tf_out w;
      replies := replies w ++ map answer reqs |}).
Proof.
  revert w; induction reqs as [|req reqs IH]; intros w.
  - destruct w; simpl. now rewrite !app_nil_r.
  - cbn [spinOnce]. unfold bind at 1. rewrite say_run.
    unfold bind, reply. rewrite IH. cbn [message rosout chatter tf_out replies].
    rewrite <- !app_assoc, map_cons, last_cons. reflexivity.
Qed.

Lemma iteration_run (l : Locals Quaternion) (e : Spin) (w : World Quaternion) :
  iteration setRPY l e w =
  ({| count := Int.incr (count l);
      transform := transform_ (world_to_talk setRPY (now e)) |},
   {| message := last (map inputStr (pending e)) (message w);
      rosout := rosout w ++ {| level := Info;
                               text := c_str (composed (count l) (message w)) |}
                         :: map (fun _ => changed) (pending e);
      chatter := chatter w ++ [composed (count l) (message w)];
      tf_out := tf_out w ++ [world_to_talk setRPY (now e)];
      replies := replies w ++ map answer (pending e) |}).
Proof.
  unfold iteration, bind, get_message, ROS_LOG, publish, sendTransform, ret.
  rewrite spinOnce_run. cbn [message rosout chatter tf_out replies].
  rewrite <- app_assoc. reflexivity.
Qed.

Lemma check_frequency_run (f : Z) (w : World Quaternion) :
  check_frequency f w =
  (if f >? 0 then f else 10,
   {| message := message w;
      rosout := rosout w ++
        (if f >? 0 then
           [{| level := Debug;
               text := "Talker publishing at frequency: " ++ Int.to_string f |}]
         else if f <? 0 then
           [{| level := Fatal;
               text := "Talker expects positive value of frequency" |};
            {| level := Warn;
               text := "Talker frequency set to default value of 10Hz" |}]
         else
           [{| level := Error; text := "Talker expects non-zero frequency" |};
            {| level := Warn;
               text := "Talker frequency set to default value of 10Hz" |}]);
      chatter := chatter w; tf_out := tf_out w; replies := replies w |}).
Proof.
  unfold check_frequency.
  destruct (f >? 0) eqn:Hpos; [|destruct (f <? 0) eqn:Hneg;
    [|destruct (f =? 0) eqn:Hzero; [|lia]]];
    unfold bind, ROS_LOG, ret; cbn [message rosout chatter tf_out replies];
    rewrite <- ?app_assoc; reflexivity.
Qed.

(** The loop splits at any point of the run. *)
Lemma loop_app (env env' : list Spin) (l : Locals Quaternion) (w : World Quaternion) :
  loop setRPY l (env ++ env') w =
  loop setRPY (fst (loop setRPY l env w)) env' (snd (loop setRPY l env w)).
Proof.
  revert l w; induction env as [|e env IH]; intros l w; [reflexivity|].
  cbn [loop app]. unfold bind. destruct (iteration setRPY l e w) as [l1 w1].
  apply IH.
Qed.

Lemma loop_count (env : list Spin) (l : Locals Quaternion) (w : World Quaternion) :
  Int.wrap (count (fst (loop setRPY l env w))) =
  Int.wrap (count l + Z.of_nat (length env)).
Proof.
  revert l w; induction env as [|e env IH]; intros l w.
  - cbn [loop length]. unfold ret. cbn [fst]. f_equal. lia.
  - cbn [loop length]. unfold bind. rewrite iteration_run, IH.
    cbn [count]. unfold Int.incr. rewrite wrap_add_wrap. f_equal. lia.
Qed.

Lemma loop_count_in_range (env : list Spin) (l : Locals Quaternion) (w : World Quaternion) :
  Int.in_range (count l) ->
  Int.in_range (count (fst (loop setRPY l env w))).
Proof.
  revert l w; induction env as [|e env IH]; intros l w Hl; [exact Hl|].
  cbn [loop]. unfold bind. rewrite iteration_run. apply IH.
  cbn [count]. apply wrap_in_range.
Qed.

(** The counter after the loop has run [env] from 0. *)
Lemma loop_count_from_0 (t : Transform Quaternion) (env : list Spin)
    (w : World Quaternion) :
  count (fst (loop setRPY (start t) env w)) = Int.wrap (Z.of_nat (length env)).
Proof.
  rewrite <- (wrap_small (count _)).
  - rewrite loop_count. reflexivity.
  - apply loop_count_in_range. cbn.
    unfold Int.in_range, Int.INT_MIN, Int.INT_MAX. lia.
Qed.

Lemma loop_chatter (env : list Spin) (l : Locals Quaternion)
    (w : World Quaternion) :
  chatter (snd (loop setRPY l env w)) =
  (chatter w ++ texts (count l) (message w) env)%list.
Proof.
  revert l w; induction env as [|e env IH]; intros l w.
  - cbn. now rewrite app_nil_r.
  - cbn [loop texts]. unfold bind. rewrite iteration_run, IH.
    cbn [chatter message count]. now rewrite <- app_assoc.
Qed.

Lemma loop_tf_out (env : list Spin) (l : Locals Quaternion)
    (w : World Quaternion) :
  tf_out (snd (loop setRPY l env w)) =
  (tf_out w ++ map (fun e => world_to_talk setRPY (now e)) env)%list.
Proof.
  revert l w; induction env as [|e env IH]; intros l w.
  - cbn. now rewrite app_nil_r.
  - cbn [loop map]. unfold bind. rewrite iteration_run, IH.
    cbn [tf_out]. now rewrite <- app_assoc.
Qed.

Lemma loop_replies (env : list Spin) (l : Locals Quaternion)
    (w : World Quaternion) :
  replies (snd (loop setRPY l env w)) =
  (replies w ++ map answer (concat (map pending env)))%list.
Proof.
  revert l w; induction env as [|e env IH]; intros l w.
  - cbn. now rewrite app_nil_r.
  - cbn [loop map concat]. unfold bind. rewrite iteration_run, IH.
    cbn [replies]. now rewrite map_app, app_assoc.
Qed.

Lemma loop_message (env : list Spin) (l : Locals Quaternion)
    (w : World Quaternion) :
  message (snd (loop setRPY l env w)) =
  last (map inputStr (concat (map pending env))) (message w).
Proof.
  revert l w; induction env as [|e env IH]; intros l w; [reflexivity|].
  cbn [loop map concat]. unfold bind. rewrite iteration_run, IH.
  cbn [message]. now rewrite map_app, last_app_default.
Qed.

(** [main] is the start-up followed by the loop from 0. *)
Lemma main_run (argv : list string) (t : Transform Quaternion)
    (env : list Spin) (w : World Quaternion) :
  snd (main setRPY argv t env w) =
  snd (loop setRPY (start t) env
         (snd (check_frequency (requested_frequency argv) w))).
Proof.
  unfold main, bind, ret.
  destruct (check_frequency (requested_frequency argv) w) as [f w1].
  cbn [snd]. fold (start t).
  now destruct (loop setRPY (start t) env w1).
Qed.

Lemma main_chatter (argv : list string) (t : Transform Quaternion)
    (env : list Spin) (w : World Quaternion) :
  chatter (snd (main setRPY argv t env w)) =
  (chatter w ++ texts 0 (message w) env)%list.
Proof.
  rewrite main_run, loop_chatter, check_frequency_run. reflexivity.
Qed.

End Runs.

Lemma firstn_succ_nth {A} (l : list A) (n : nat) (a : A) :
  nth_error l n = Some a -> firstn (S n) l = (firstn n l ++ [a])%list.
Proof.
  revert n; induction l as [|b l IH]; intros [|n] H; try discriminate.
  - injection H as ->. reflexivity.
  - cbn [firstn app]. f_equal. apply IH. exact H.
Qed.

(** The requests served by iteration [T] are written before [T + 1]. *)
Lemma writes_before_succ (env : list Spin) (T : nat) (e : Spin) :
  nth_error env T = Some e ->
  writes_before env (S T) =
  (writes_before env T ++ map inputStr (pending e))%list.
Proof.
  intros H. unfold writes_before. rewrite (firstn_succ_nth _ _ _ H).
  rewrite map_app, concat_app, map_app. cbn [map concat].
  now rewrite app_nil_r.
Qed.

Lemma writes_before_cons (e : Spin) (env : list Spin) (T : nat) :
  writes_before (e :: env) (S T) =
  (map inputStr (pending e) ++ writes_before env T)%list.
Proof. unfold writes_before. cbn [firstn map concat]. apply map_app. Qed.

(** The text of iteration [T] carries the counter and the last text
    written before that iteration began. *)
Lemma texts_nth (env : list Spin) (c : Z) (m : string) (T : nat) :
  Int.in_range c -> (T < length env)%nat ->
  nth_error (texts c m env) T =
  Some (composed (Int.wrap (c + Z.of_nat T)) (last (writes_before env T) m)).
Proof.
  revert c m T; induction env as [|e env IH]; intros c m T Hc HT.
  - cbn in HT. lia.
  - destruct T as [|T]; cbn [texts nth_error].
    + rewrite Z.add_0_r, wrap_small by exact Hc. reflexivity.
    + rewrite IH; [|apply wrap_in_range|cbn in HT; lia].
      rewrite writes_before_cons, last_app_default.
      unfold Int.incr. rewrite wrap_add_wrap. do 3 f_equal. lia.
Qed.

(** ** The specification's properties *)

Section Specification.

Context {Quaternion : Type}.
Variable setRPY : float -> float -> float -> Quaternion.

(** C1. Frequency resolution: for every requested integer [f], the
    effective frequency is [f] when [f > 0], 10 when [f < 0] and 10 when
    [f = 0].  The result depends on [f] alone, and the resolution touches
    nothing but the notices, which it only extends. *)
Theorem frequency_resolution (f : Z) (w : World Quaternion) :
  let r := check_frequency f w in
  (f > 0 -> fst r = f) /\
  (f < 0 -> fst r = 10) /\
  (f = 0 -> fst r = 10) /\
  (forall w' : World Quaternion, fst (check_frequency f w') = fst r) /\
  message (snd r) = message w /\
  chatter (snd r) = chatter w /\
  tf_out (snd r) = tf_out w /\
  replies (snd r) = replies w /\
  exists notices, rosout (snd r) = (rosout w ++ notices)%list.
Proof.
  cbv zeta. rewrite check_frequency_run. cbn [fst snd message chatter tf_out replies rosout].
  repeat split.
  - intros Hf. destruct (Z.gtb_spec f 0); [reflexivity | lia].
  - intros Hf. destruct (Z.gtb_spec f 0); [lia | reflexivity].
  - intros ->. reflexivity.
  - intros w'. now rewrite check_frequency_run.
  - eexists. reflexivity.
Qed.

(** C3. The mutation handler echoes and overwrites: for every input
    string [X], the empty one and long ones alike, the response of [say]
    has [modifiedStr = X] and the global message is [X] afterwards; what
    was published, broadcast and replied before is left as it was. *)
Theorem say_echoes_and_overwrites (X : string) (res : Response)
    (w : World Quaternion) :
  let r := say {| inputStr := X |} res w in
  modifiedStr (snd (fst r)) = X /\
  message (snd r) = X /\
  chatter (snd r) = chatter w /\
  tf_out (snd r) = tf_out w /\
  replies (snd r) = replies w.
Proof.
  cbv zeta. rewrite say_run. unfold answer. cbn. repeat split.
Qed.

(** C5. End to end: an iteration publishes the decimal sequence number,
    a space and the message it finds; from the default message the first
    iteration publishes "0 Written By Aman Virmani", and when a call with
    "hello" is served after it (and answered "hello"), the second one
    publishes "1 hello". *)
Theorem end_to_end :
  (forall (l : Locals Quaternion) (e : Spin) (w : World Quaternion),
      chatter (snd (iteration setRPY l e w)) =
      (chatter w ++ [(Int.to_string (count l) ++ " " ++ message w)%string])%list) /\
  (forall (argv : list string) (t : Transform Quaternion) (t0 t1 : Time),
      let env := [ {| now := t0; pending := [ {| inputStr := "hello" |} ] |};
                   {| now := t1; pending := [] |} ] in
      let w := snd (main setRPY argv t env initial_world) in
      chatter w = ["0 Written By Aman Virmani"; "1 hello"] /\
      replies w = [(true, {| modifiedStr := "hello" |})]).
Proof.
  split.
  - intros l e w. rewrite iteration_run. reflexivity.
  - intros argv t t0 t1. cbv zeta. split.
    + rewrite main_chatter. reflexivity.
    + rewrite main_run, loop_replies, check_frequency_run. reflexivity.
Qed.

(** C7. The effective frequency is positive: whatever integer is
    requested, the frequency that start-up hands to the rate is greater
    than 0, so the period 1/effective is defined: it is the number whose
    product with the frequency is 1. *)
Theorem effective_frequency_positive (f : Z) (w : World Quaternion) :
  let effective := fst (check_frequency f w) in
  0 < effective /\ (inject_Z effective * period effective == 1)%Q.
Proof.
  cbv zeta. rewrite check_frequency_run. cbn [fst].
  assert (Hpos : 0 < (if f >? 0 then f else 10)).
  { destruct (Z.gtb_spec f 0); lia. }
  split; [exact Hpos|].
  unfold period, Rate_of. cbn [expected_cycle_time].
  apply Qmult_div_r. intros H0.
  apply (Qlt_not_eq 0 (inject_Z (if f >? 0 then f else 10))).
  - change 0%Q with (inject_Z 0). rewrite <- Zlt_Qlt. exact Hpos.
  - symmetry. exact H0.
Qed.

(** C8. The mutation handler has no failure mode: [say] returns [true]
    for every request, and however many requests a run serves, each one
    is answered, with [true]. *)
Theorem say_never_fails :
  (forall (req : Request) (res : Response) (w : World Quaternion),
      fst (fst (say req res w)) = true) /\
  (forall (env : list Spin) (l : Locals Quaternion) (w : World Quaternion),
      exists answers,
        replies (snd (loop setRPY l env w)) = (replies w ++ answers)%list /\
        length answers = length (concat (map pending env)) /\
        Forall (fun r => fst r = true) answers).
Proof.
  split.
  - intros req res w. rewrite say_run. reflexivity.
  - intros env l w. exists (map answer (concat (map pending env))).
    split; [apply loop_replies|]. split; [apply length_map|].
    apply Forall_forall. intros r Hr. apply in_map_iff in Hr.
    destruct Hr as (req & <- & _). reflexivity.
Qed.

(** C9. The transform is constant: every iteration broadcasts exactly one
    transform, with translation (0.0, 2.0, 0.0), the rotation that
    [setRPY(0, 0, 1)] gives, parent frame "world" and child frame "talk",
    whatever the message, the counter and the transform object held
    before; only the stamp, the clock reading of the iteration, varies.
    A whole run broadcasts one such transform per iteration. *)
Theorem transform_is_constant :
  (forall (l : Locals Quaternion) (e : Spin) (w : World Quaternion),
      tf_out (snd (iteration setRPY l e w)) =
      (tf_out w ++
       [ {| transform_ :=
              {| origin := {| x := 0%float; y := 2%float; z := 0%float |};
                 rotation := setRPY 0%float 0%float 1%float |};
            stamp_ := now e;
            frame_id_ := "world";
            child_frame_id_ := "talk" |} ])%list) /\
  (forall (argv : list string) (t : Transform Quaternion) (env : list Spin)
          (w : World Quaternion),
      tf_out (snd (main setRPY argv t env w)) =
      (tf_out w ++ map (fun e => world_to_talk setRPY (now e)) env)%list).
Proof.
  split.
  - intros l e w. rewrite iteration_run. reflexivity.
  - intros argv t env w.
    rewrite main_run, loop_tf_out, check_frequency_run. reflexivity.
Qed.

(** Below the overflow the sequence counter is what C4 says: it starts at
    0, and as long as fewer than 2^31 iterations have completed it equals
    the number of completed iterations, each of them having added exactly
    1. *)
Theorem sequence_counter_below_bound (t : Transform Quaternion)
    (env : list Spin) (w : World Quaternion) :
  Z.of_nat (length env) < 2147483648 ->
  count (start t) = 0 /\
  (forall N : nat, (N <= length env)%nat ->
     count (fst (loop setRPY (start t) (firstn N env) w)) = Z.of_nat N) /\
  (forall N : nat, (N < length env)%nat ->
     count (fst (loop setRPY (start t) (firstn (S N) env) w)) =
     count (fst (loop setRPY (start t) (firstn N env) w)) + 1).
Proof.
  intros Hlen.
  assert (Hcount : forall N : nat, (N <= length env)%nat ->
            count (fst (loop setRPY (start t) (firstn N env) w)) = Z.of_nat N).
  { intros N HN. rewrite loop_count_from_0, firstn_length_le by exact HN.
    apply wrap_small. unfold Int.in_range, Int.INT_MIN, Int.INT_MAX. lia. }
  split; [reflexivity|]. split; [exact Hcount|].
  intros N HN. rewrite !Hcount by lia. lia.
Qed.

(** C10. The sequence counter is a 32-bit [int]: an iteration replaces it
    by its successor wrapped into the range of [int], so after a run it
    lies in that range and agrees with the number of iterations modulo
    2^32; it is that number exactly when the number is below 2^31. *)
Theorem counter_is_32_bit (t : Transform Quaternion) (env : list Spin)
    (w : World Quaternion) :
  let n := Z.of_nat (length env) in
  let c := count (fst (loop setRPY (start t) env w)) in
  (forall (l : Locals Quaternion) (e : Spin) (w' : World Quaternion),
      count (fst (iteration setRPY l e w')) = Int.wrap (count l + 1)) /\
  -2147483648 <= c <= 2147483647 /\
  c mod 4294967296 = n mod 4294967296 /\
  (c = n <-> n < 2147483648).
Proof.
  cbv zeta. rewrite loop_count_from_0. split; [|split; [|split]].
  - intros l e w'. rewrite iteration_run. reflexivity.
  - apply wrap_in_range.
  - apply wrap_mod.
  - rewrite wrap_fixed_iff.
    unfold Int.in_range, Int.INT_MIN, Int.INT_MAX. lia.
Qed.

(** C2. Bounded staleness across the two channels, the message being one
    cell in which the last write wins: when [X] is the write completed
    last before iteration [T] begins, iteration [T] publishes its sequence
    number, a space and [X]; and when [X] is the last write made while
    iteration [T] runs, which is after [T] has published, iteration
    [T + 1] publishes [X]. *)
Theorem bounded_staleness (argv : list string) (t : Transform Quaternion)
    (env : list Spin) (T : nat) (X : string) :
  let published := chatter (snd (main setRPY argv t env initial_world)) in
  (forall earlier : list string,
      (T < length env)%nat ->
      writes_before env T = (earlier ++ [X])%list ->
      nth_error published T =
      Some (Int.to_string (Int.wrap (Z.of_nat T)) ++ " " ++ X)%string) /\
  (forall earlier : list string,
      (S T < length env)%nat ->
      writes_during env T = (earlier ++ [X])%list ->
      nth_error published (S T) =
      Some (Int.to_string (Int.wrap (Z.of_nat (S T))) ++ " " ++ X)%string).
Proof.
  cbv zeta. rewrite main_chatter. cbn [chatter initial_world app].
  assert (Hlast : forall (n : nat) (earlier : list string),
            (n < length env)%nat ->
            writes_before env n = (earlier ++ [X])%list ->
            nth_error (texts 0 (message (@initial_world Quaternion)) env) n =
            Some (composed (Int.wrap (Z.of_nat n)) X)).
  { intros n earlier Hn Hw. rewrite texts_nth; [|cbv; split; discriminate|exact Hn].
    rewrite Hw, last_app_default. reflexivity. }
  split.
  - intros earlier HT Hw. apply (Hlast T earlier HT Hw).
  - intros earlier HT Hw. unfold writes_during in Hw.
    destruct (nth_error env T) as [e|] eqn:He.
    + apply (Hlast (S T) (writes_before env T ++ earlier)%list HT).
      rewrite (writes_before_succ _ _ _ He), Hw, app_assoc. reflexivity.
    + now destruct earlier.
Qed.

End Specification.

(** ** Concrete runs *)

(** C1 at 5, -5 and 0. *)
Lemma frequency_resolution_witness :
  (5 > 0 /\ fst (check_frequency 5 (@initial_world Euler)) = 5) /\
  (-5 < 0 /\ fst (check_frequency (-5) (@initial_world Euler)) = 10) /\
  fst (check_frequency 0 (@initial_world Euler)) = 10.
Proof.
  destruct (frequency_resolution 5 (@initial_world Euler)) as (Hpos & _).
  destruct (frequency_resolution (-5) (@initial_world Euler)) as (_ & Hneg & _).
  destruct (frequency_resolution 0 (@initial_world Euler)) as (_ & _ & Hzero & _).
  split; [split; [lia | apply Hpos; lia]|].
  split; [split; [lia | apply Hneg; lia]|].
  apply Hzero. reflexivity.
Defined.

(** The request of -5 Hz: 10 Hz, after a critical-level and a
    warning-level notice, before anything is published. *)
Example minus_five_hertz :
  check_frequency (requested_frequency ["talker"; "-5"]) (@initial_world Euler) =
  (10,
   {| message := "Written By Aman Virmani";
      rosout :=
        [ {| level := Fatal;
             text := "Talker expects positive value of frequency" |};
          {| level := Warn;
             text := "Talker frequency set to default value of 10Hz" |} ];
      chatter := []; tf_out := []; replies := [] |}).
Proof. reflexivity. Qed.

(** C3 at the empty string. *)
Example say_empty_string :
  say {| inputStr := "" |} {| modifiedStr := "old" |} (@initial_world Euler) =
  ((true, {| modifiedStr := "" |}),
   {| message := ""; rosout := [changed];
      chatter := []; tf_out := []; replies := [] |}).
Proof. reflexivity. Qed.

(** The counter at the 2^31-th iteration: after 2^31 - 1 iterations it is
    2147483647, and after 2^31 it is -2147483648, which is neither the
    number of completed iterations nor an increase. *)
Lemma counter_wraps_at_2_31 :
  count (fst (loop Build_Euler (start garbage)
                (repeat (idle epoch) (Z.to_nat 2147483647)) initial_world))
  = 2147483647 /\
  count (fst (loop Build_Euler (start garbage)
                (repeat (idle epoch) (Z.to_nat 2147483648)) initial_world))
  = -2147483648.
Proof.
  split; rewrite loop_count_from_0, repeat_length, Z2Nat.id by discriminate;
    reflexivity.
Qed.

Lemma writes_before_quiet (t : Time) (n T : nat) :
  writes_before (repeat (idle t) n) T = [].
Proof.
  revert T; induction n as [|n IH]; intros [|T]; try reflexivity.
  cbn [repeat]. rewrite writes_before_cons, IH. reflexivity.
Qed.

(** C4 on [main], past the range of [int]: in a run of 2^31 + 1 quiet
    iterations, the iteration that follows 2^31 - 1 completed ones
    publishes the sequence number 2147483647, and the next one, with 2^31
    iterations completed, publishes -2147483648: the sequence number has
    decreased and is no longer the number of completed iterations, the
    "count of how many messages we have sent" of lines 140-143. *)
Theorem sequence_number_overflows :
  nth_error
    (chatter (snd (main Build_Euler ["talker"] garbage
                     (repeat (idle epoch) (Z.to_nat 2147483649))
                     initial_world)))
    (Z.to_nat 2147483647) = Some "2147483647 Written By Aman Virmani" /\
  nth_error
    (chatter (snd (main Build_Euler ["talker"] garbage
                     (repeat (idle epoch) (Z.to_nat 2147483649))
                     initial_world)))
    (Z.to_nat 2147483648) = Some "-2147483648 Written By Aman Virmani".
Proof.
  rewrite main_chatter. cbn [chatter initial_world app].
  split.
  - rewrite texts_nth.
    + rewrite writes_before_quiet, Z2Nat.id by discriminate. reflexivity.
    + cbv; split; discriminate.
    + rewrite repeat_length. apply Z2Nat.inj_lt; lia.
  - rewrite texts_nth.
    + rewrite writes_before_quiet, Z2Nat.id by discriminate. reflexivity.
    + cbv; split; discriminate.
    + rewrite repeat_length. apply Z2Nat.inj_lt; lia.
Qed.

(** The counter below the overflow, on a run of three iterations. *)
Lemma sequence_counter_witness :
  Z.of_nat (length [idle epoch; idle epoch; idle epoch]) < 2147483648 /\
  count (fst (loop Build_Euler (start garbage)
                (firstn 2 [idle epoch; idle epoch; idle epoch])
                initial_world)) = 2.
Proof.
  assert (H : Z.of_nat (length [idle epoch; idle epoch; idle epoch]) < 2147483648)
    by (cbn; lia).
  split; [exact H|].
  destruct (sequence_counter_below_bound Build_Euler garbage
              [idle epoch; idle epoch; idle epoch] initial_world H)
    as (_ & Hcount & _).
  apply (Hcount 2%nat). cbn; lia.
Defined.

(** Last write wins: "a" and "b" are both written during iteration 0, and
    iteration 1 publishes "1 b". *)
Example last_of_two_writes_is_published :
  writes_during two_writes 0 = ["a"; "b"] /\
  chatter (snd (main Build_Euler ["talker"] garbage two_writes initial_world))
  = ["0 Written By Aman Virmani"; "1 b"].
Proof. split; reflexivity. Qed.

(** C2 on that run: "b" is the last write before iteration 1 begins, and
    the last one made while iteration 0 runs. *)
Lemma bounded_staleness_witness :
  ((1 < length two_writes)%nat /\
   writes_before two_writes 1 = (["a"] ++ ["b"])%list /\
   nth_error
     (chatter (snd (main Build_Euler ["talker"] garbage two_writes
                      initial_world))) 1 = Some "1 b") /\
  ((1 < length two_writes)%nat /\
   writes_during two_writes 0 = (["a"] ++ ["b"])%list /\
   nth_error
     (chatter (snd (main Build_Euler ["talker"] garbage two_writes
                      initial_world))) 1 = Some "1 b").
Proof.
  assert (Hlen : (1 < length two_writes)%nat) by (cbn; lia).
  assert (Hb : writes_before two_writes 1 = (["a"] ++ ["b"])%list) by reflexivity.
  assert (Hd : writes_during two_writes 0 = (["a"] ++ ["b"])%list) by reflexivity.
  destruct (bounded_staleness Build_Euler ["talker"] garbage two_writes 1 "b")
    as (Hbefore & _).
  destruct (bounded_staleness Build_Euler ["talker"] garbage two_writes 0 "b")
    as (_ & Hduring).
  split.
  - split; [exact Hlen|]. split; [exact Hb|]. apply (Hbefore ["a"] Hlen Hb).
  - split; [exact Hlen|]. split; [exact Hd|]. apply (Hduring ["a"] Hlen Hd).
Defined.

(** * Further properties of the node *)

(** ** Decimal digits, as printed and as read *)

(** The digits of a numeral are neither spaces nor NULs. *)
Lemma uint_digits_only (d : Decimal.uint) :
  contains " " (NilEmpty.string_of_uint d) = false /\
  contains Ascii.zero (NilEmpty.string_of_uint d) = false.
Proof. induction d; cbn; tauto. Qed.

Lemma to_string_plain (n : Z) :
  contains " " (Int.to_string n) = false /\
  contains Ascii.zero (Int.to_string n) = false.
Proof.
  unfold Int.to_string, NilZero.string_of_int, NilZero.string_of_uint.
  destruct (Z.to_int n) as [d | d]; destruct d; cbn;
    try (split; reflexivity);
    match goal with
    | |- context [NilEmpty.string_of_uint ?d] => apply (uint_digits_only d)
    end.
Qed.

Lemma to_int_nonnil (n : Z) : Z.to_int n <> Decimal.Pos Decimal.Nil /\
                              Z.to_int n <> Decimal.Neg Decimal.Nil.
Proof.
  destruct n as [|p|p]; cbn; split; try discriminate;
    intros [= H]; apply (DecimalPos.Unsigned.to_uint_nonnil p H).
Qed.

(** Printing an integer loses nothing. *)
Lemma to_string_inj (n n' : Z) : Int.to_string n = Int.to_string n' -> n = n'.
Proof.
  unfold Int.to_string. intros H.
  apply DecimalZ.to_int_inj.
  assert (Hs : Some (Z.to_int n) = Some (Z.to_int n')).
  { rewrite <- (NilZero.isi (Z.to_int n)), <- (NilZero.isi (Z.to_int n'))
      by apply to_int_nonnil.
    now rewrite H. }
  now injection Hs.
Qed.

(** Two texts with space-free heads agree only when heads and tails do. *)
Lemma append_space_inj (a1 a2 m1 m2 : string) :
  contains " " a1 = false -> contains " " a2 = false ->
  (a1 ++ String " " m1)%string = (a2 ++ String " " m2)%string ->
  a1 = a2 /\ m1 = m2.
Proof.
  revert a2; induction a1 as [|c1 a1 IH]; intros [|c2 a2] H1 H2 H;
    cbn in H, H1, H2.
  - injection H as ->. split; reflexivity.
  - injection H as <- _. apply orb_false_iff in H2. destruct H2 as [H2 _].
    discriminate H2.
  - injection H as -> _. apply orb_false_iff in H1. destruct H1 as [H1 _].
    discriminate H1.
  - injection H as -> H. apply orb_false_iff in H1, H2.
    destruct (IH a2 (proj2 H1) (proj2 H2) H) as [-> ->]. split; reflexivity.
Qed.

(** [atoi] stops where the digits stop. *)
Lemma digits_stop (acc : Z) (s : string) :
  starts_with_digit s = false -> Libc.digits acc s = acc.
Proof.
  destruct s as [|c s]; cbn; [reflexivity|].
  destruct (Libc.digit c); [discriminate | reflexivity].
Qed.

Lemma digits_uint_acc (d : Decimal.uint) (acc : positive) (rest : string) :
  starts_with_digit rest = false ->
  Libc.digits (Z.pos acc) (NilEmpty.string_of_uint d ++ rest) =
  Z.pos (Pos.of_uint_acc d acc).
Proof.
  intros Hrest. revert acc; induction d; intros acc;
    cbn [NilEmpty.string_of_uint append Pos.of_uint_acc];
    [apply digits_stop, Hrest | ..];
    rewrite <- IHd; cbn [Libc.digits];
    match goal with
    | |- context [Libc.digit ?c] =>
        let v := eval vm_compute in (Libc.digit c) in
        change (Libc.digit c) with v
    end;
    cbv iota beta; f_equal; lia.
Qed.

Lemma digits_uint (d : Decimal.uint) (rest : string) :
  starts_with_digit rest = false ->
  Libc.digits 0 (NilEmpty.string_of_uint d ++ rest) = Z.of_N (Pos.of_uint d).
Proof.
  intros Hrest. induction d;
    cbn [NilEmpty.string_of_uint append Pos.of_uint];
    [apply digits_stop, Hrest | exact IHd | ..];
    cbn [Z.of_N]; rewrite <- (digits_uint_acc _ _ _ Hrest); reflexivity.
Qed.

(** A numeral starts with a digit: no white space and no sign. *)
Lemma uint_head (d : Decimal.uint) :
  d <> Decimal.Nil ->
  exists c s, NilEmpty.string_of_uint d = String c s /\
              Libc.isspace c = false /\
              Ascii.eqb c "-" = false /\ Ascii.eqb c "+" = false.
Proof.
  destruct d; [intros H; now destruct H | ..]; intros _;
    eexists; eexists; repeat split.
Qed.

Lemma strtol_uint (d : Decimal.uint) (rest : string) :
  d <> Decimal.Nil -> starts_with_digit rest = false ->
  Libc.strtol (NilEmpty.string_of_uint d ++ rest) =
  Libc.saturate (Z.of_N (Pos.of_uint d)).
Proof.
  intros Hnil Hrest.
  assert (Hd := digits_uint d rest Hrest).
  destruct (uint_head d Hnil) as (c & s & Hs & Hsp & Hm & Hpl).
  rewrite Hs in *. unfold Libc.strtol.
  cbn [append Libc.skip_space]. rewrite Hsp.
  cbn [Libc.sign]. rewrite Hm, Hpl.
  cbn [append] in Hd. rewrite Hd. reflexivity.
Qed.

Lemma strtol_minus_uint (d : Decimal.uint) (rest : string) :
  starts_with_digit rest = false ->
  Libc.strtol (String "-" (NilEmpty.string_of_uint d) ++ rest) =
  Libc.saturate (- Z.of_N (Pos.of_uint d)).
Proof.
  intros Hrest.
  assert (Hd := digits_uint d rest Hrest).
  unfold Libc.strtol. cbn [append Libc.skip_space Libc.isspace].
  cbn [Libc.sign Ascii.eqb Bool.eqb]. rewrite Hd. reflexivity.
Qed.

Lemma nilzero_nonnil (d : Decimal.uint) :
  d <> Decimal.Nil -> NilZero.string_of_uint d = NilEmpty.string_of_uint d.
Proof. destruct d; [intros H; now destruct H | reflexivity ..]. Qed.

(** What [atoi] reads from the print of an [int] is that [int], whatever
    follows the digits. *)
Lemma atoi_to_string (n : Z) (rest : string) :
  Int.in_range n -> starts_with_digit rest = false ->
  Libc.atoi (Int.to_string n ++ rest) = n.
Proof.
  intros Hn Hrest. unfold Libc.atoi.
  assert (Hsat : Libc.saturate n = n).
  { unfold Libc.saturate, Int.LONG_MIN, Int.LONG_MAX.
    unfold Int.in_range, Int.INT_MIN, Int.INT_MAX in Hn.
    destruct (Z.ltb_spec n (-9223372036854775808)); [lia|].
    destruct (Z.ltb_spec 9223372036854775807 n); [lia | reflexivity]. }
  assert (Hstr : Libc.strtol (Int.to_string n ++ rest) = Libc.saturate n).
  { clear Hsat Hn. unfold Int.to_string.
    destruct n as [|p|p]; cbn [Z.to_int NilZero.string_of_int].
    - apply (strtol_uint (Decimal.D0 Decimal.Nil) rest);
        [discriminate | exact Hrest].
    - pose proof (DecimalPos.Unsigned.to_uint_nonnil p) as Hnil.
      rewrite (nilzero_nonnil _ Hnil), (strtol_uint _ _ Hnil Hrest).
      now rewrite DecimalPos.Unsigned.of_to.
    - pose proof (DecimalPos.Unsigned.to_uint_nonnil p) as Hnil.
      rewrite (nilzero_nonnil _ Hnil), (strtol_minus_uint _ _ Hrest).
      now rewrite DecimalPos.Unsigned.of_to. }
  rewrite Hstr, Hsat. apply wrap_small, Hn.
Qed.

Lemma strtol_skip_space (ws s : string) :
  all_space ws = true -> Libc.strtol (ws ++ s) = Libc.strtol s.
Proof.
  intros Hws. unfold Libc.strtol. f_equal.
  induction ws as [|c ws IH]; [reflexivity|].
  cbn in Hws. apply andb_true_iff in Hws. destruct Hws as [Hc Hws].
  cbn [append Libc.skip_space]. rewrite Hc, (IH Hws).
  destruct s as [|a s]; cbn [Libc.skip_space]; reflexivity.
Qed.

Lemma strtol_no_number (body : string) :
  no_number body -> Libc.strtol body = 0.
Proof.
  intros [|c s Hsp Hdig Hm Hp|c s Hsign Hs]; unfold Libc.strtol.
  - reflexivity.
  - cbn [Libc.skip_space]. rewrite Hsp. cbn [Libc.sign].
    apply Ascii.eqb_neq in Hm, Hp. rewrite Hm, Hp.
    cbn [Libc.digits]. rewrite Hdig. reflexivity.
  - destruct Hsign as [-> | ->]; cbn [Libc.skip_space Libc.isspace];
      cbn [Libc.sign Ascii.eqb Bool.eqb]; rewrite (digits_stop 0 s Hs);
      reflexivity.
Qed.

(** ** The frequency argument *)

Section StartUp.

Context {Quaternion : Type}.

(** C6, as the code has it.  Start-up arguments.  When the frequency
    argument is absent, the default 10 is taken as a nominal request:
    effective frequency 10, one debug-level notice, no fallback.  When it
    is present it is read as [atoi] reads it.  An argument in which, after
    white space, no number is found is treated as 0 and the zero-frequency
    fallback applies: effective frequency 10, an error-level notice, then
    the corrective warning.  An argument that holds, after white space,
    the decimal form of an [int] [n] is read as [n] whatever text follows
    the digits, and for a positive [n] the node runs at [n] Hz with one
    debug-level notice. *)
Theorem startup_argument (w : World Quaternion) :
  (forall argv : list string,
      (length argv <= 1)%nat ->
      let r := check_frequency (requested_frequency argv) w in
      requested_frequency argv = 10 /\ fst r = 10 /\
      rosout (snd r) =
      (rosout w ++
       [ {| level := Debug;
            text := "Talker publishing at frequency: 10" |} ])%list) /\
  (forall (prog ws body : string) (others : list string),
      all_space ws = true -> no_number body ->
      let argv := prog :: (ws ++ body)%string :: others in
      let r := check_frequency (requested_frequency argv) w in
      requested_frequency argv = 0 /\ fst r = 10 /\
      rosout (snd r) =
      (rosout w ++
       [ {| level := Error; text := "Talker expects non-zero frequency" |};
         {| level := Warn;
            text := "Talker frequency set to default value of 10Hz" |} ])%list) /\
  (forall (prog ws rest : string) (others : list string) (n : Z),
      -2147483648 <= n <= 2147483647 ->
      all_space ws = true -> starts_with_digit rest = false ->
      let argv := prog :: (ws ++ Int.to_string n ++ rest)%string :: others in
      let r := check_frequency (requested_frequency argv) w in
      requested_frequency argv = n /\
      (0 < n ->
       fst r = n /\
       rosout (snd r) =
       (rosout w ++
        [ {| level := Debug;
             text := "Talker publishing at frequency: " ++ Int.to_string n |} ])%list)).
Proof.
  split; [|split].
  - intros argv Hargc. cbv zeta.
    assert (Hreq : requested_frequency argv = 10).
    { unfold requested_frequency.
      destruct (Z.gtb_spec (Z.of_nat (length argv)) 1); [lia | reflexivity]. }
    rewrite Hreq, check_frequency_run. repeat split.
  - intros prog ws body others Hws Hbody. cbv zeta.
    assert (Hreq : requested_frequency (prog :: (ws ++ body)%string :: others) = 0).
    { unfold requested_frequency. cbn [length nth].
      destruct (Z.gtb_spec (Z.of_nat (S (S (length others)))) 1); [|lia].
      unfold Libc.atoi.
      rewrite (strtol_skip_space _ _ Hws), (strtol_no_number _ Hbody).
      reflexivity. }
    rewrite Hreq, check_frequency_run. repeat split.
  - intros prog ws rest others n Hn Hws Hrest. cbv zeta.
    assert (Hreq : requested_frequency
                     (prog :: (ws ++ Int.to_string n ++ rest)%string :: others) = n).
    { unfold requested_frequency. cbn [length nth].
      destruct (Z.gtb_spec (Z.of_nat (S (S (length others)))) 1); [|lia].
      unfold Libc.atoi. rewrite strtol_skip_space by exact Hws.
      apply atoi_to_string; assumption. }
    split; [exact Hreq|]. intros Hpos.
    rewrite Hreq, check_frequency_run. cbn [fst snd rosout].
    destruct (Z.gtb_spec n 0); [split; reflexivity | lia].
Qed.

End StartUp.

(** C6 as stated fails in two ways.  With no argument the request is 10,
    not 0: the notice is a debug-level one and no error-level notice
    appears.  And the non-numeric argument "12abc" is read as 12, not as
    0: the node runs at 12 Hz with a debug-level notice. *)
Lemma argument_is_not_treated_as_zero :
  (requested_frequency ["talker"] = 10 /\
   requested_frequency ["talker"] <> 0 /\
   rosout (snd (check_frequency (requested_frequency ["talker"])
                  (@initial_world Euler))) =
   [ {| level := Debug; text := "Talker publishing at frequency: 10" |} ] /\
   ~ In Error (map level
                 (rosout (snd (check_frequency (requested_frequency ["talker"])
                                 (@initial_world Euler)))))) /\
  (requested_frequency ["talker"; "12abc"] = 12 /\
   check_frequency (requested_frequency ["talker"; "12abc"])
     (@initial_world Euler) =
   (12,
    {| message := "Written By Aman Virmani";
       rosout :=
         [ {| level := Debug; text := "Talker publishing at frequency: 12" |} ];
       chatter := []; tf_out := []; replies := [] |})).
Proof.
  split.
  - repeat split; try discriminate.
    cbn. intros [H | []]. discriminate H.
  - split; reflexivity.
Qed.

(** C6, as the code has it: with no argument, with the arguments "abc" and
    " -x", in which there is no number, and with "12abc". *)
Lemma startup_argument_witness :
  ((length ["talker"] <= 1)%nat /\
   fst (check_frequency (requested_frequency ["talker"])
          (@initial_world Euler)) = 10) /\
  (no_number "abc" /\ requested_frequency ["talker"; "abc"] = 0) /\
  (all_space " " = true /\ no_number "-x" /\
   requested_frequency ["talker"; " -x"] = 0) /\
  (-2147483648 <= 12 <= 2147483647 /\
   starts_with_digit "abc" = false /\
   requested_frequency ["talker"; "12abc"] = 12).
Proof.
  destruct (startup_argument (@initial_world Euler)) as (Habsent & Hnone & Hnum).
  assert (Habc : no_number "abc").
  { apply no_number_char; [reflexivity | reflexivity | discriminate | discriminate]. }
  assert (Hx : no_number "-x").
  { apply no_number_sign; [left; reflexivity | reflexivity]. }
  assert (H12 : -2147483648 <= 12 <= 2147483647) by lia.
  split; [|split; [|split]].
  - split; [cbn; lia|]. apply (Habsent ["talker"]). cbn; lia.
  - split; [exact Habc|].
    exact (proj1 (Hnone "talker" "" "abc" [] eq_refl Habc)).
  - split; [reflexivity|]. split; [exact Hx|].
    exact (proj1 (Hnone "talker" " " "-x" [] eq_refl Hx)).
  - split; [exact H12|]. split; [reflexivity|].
    exact (proj1 (Hnum "talker" "" "abc" [] 12 H12 eq_refl eq_refl)).
Defined.

(** ** The text of a message *)

Lemma composed_inj (c1 c2 : Z) (m1 m2 : string) :
  composed c1 m1 = composed c2 m2 -> c1 = c2 /\ m1 = m2.
Proof.
  unfold composed. cbn [append]. intros H.
  apply append_space_inj in H; try apply to_string_plain.
  destruct H as [Hc Hm]. split; [apply to_string_inj, Hc | exact Hm].
Qed.

Lemma texts_length (env : list Spin) (c : Z) (m : string) :
  length (texts c m env) = length env.
Proof.
  revert c m; induction env as [|e env IH]; intros c m; [reflexivity|].
  cbn [texts length]. now rewrite IH.
Qed.

(** Below 2^32 the wrapped counter still tells iterations apart. *)
Lemma wrap_inj_below (i j : Z) :
  0 <= i < 4294967296 -> 0 <= j < 4294967296 ->
  Int.wrap i = Int.wrap j -> i = j.
Proof.
  intros Hi Hj H.
  rewrite <- (Z.mod_small i 4294967296), <- (Z.mod_small j 4294967296) by lia.
  rewrite <- (wrap_mod i), <- (wrap_mod j). now rewrite H.
Qed.

(** ** What [ROS_INFO] shows of a text *)

Lemma c_str_no_nul (s : string) : contains Ascii.zero (c_str s) = false.
Proof.
  induction s as [|c s IH]; [reflexivity|]. cbn [c_str].
  destruct (Ascii.eqb c Ascii.zero) eqn:Hc; [reflexivity|].
  cbn [contains]. now rewrite Hc, IH.
Qed.

Lemma c_str_prefix (s : string) : exists cut, s = (c_str s ++ cut)%string.
Proof.
  induction s as [|c s [cut IH]]; [now exists ""|]. cbn [c_str].
  destruct (Ascii.eqb c Ascii.zero).
  - now exists (String c s).
  - exists cut. cbn [append]. now rewrite <- IH.
Qed.

Lemma c_str_append (a b : string) :
  contains Ascii.zero a = false -> c_str (a ++ b) = (a ++ c_str b)%string.
Proof.
  induction a as [|c a IH]; [reflexivity|]. cbn [contains append c_str].
  intros H. apply orb_false_iff in H. destruct H as [Hc Ha].
  now rewrite Hc, (IH Ha).
Qed.

Lemma c_str_id (s : string) : contains Ascii.zero s = false -> c_str s = s.
Proof.
  induction s as [|c s IH]; [reflexivity|]. cbn [contains c_str].
  intros H. apply orb_false_iff in H. destruct H as [Hc Hs].
  now rewrite Hc, (IH Hs).
Qed.

Lemma c_str_composed (c : Z) (m : string) :
  c_str (composed c m) = composed c (c_str m).
Proof.
  unfold composed. rewrite c_str_append by apply to_string_plain.
  reflexivity.
Qed.

Section Logs.

Context {Quaternion : Type}.
Variable setRPY : float -> float -> float -> Quaternion.

Lemma loop_rosout (env : list Spin) (l : Locals Quaternion)
    (w : World Quaternion) :
  exists notices,
    rosout (snd (loop setRPY l env w)) = (rosout w ++ notices)%list /\
    Forall (fun n => level n = Info) notices /\
    length notices = (length env + length (served env))%nat.
Proof.
  revert l w; induction env as [|e env IH]; intros l w.
  - exists []. cbn. now rewrite app_nil_r.
  - cbn [loop]. unfold bind. rewrite iteration_run.
    match goal with
    | |- context [loop setRPY ?l1 env ?w1] =>
        destruct (IH l1 w1) as (ns & Hns & Hinfo & Hlen)
    end.
    rewrite Hns. cbn [rosout]. rewrite <- app_assoc. eexists.
    split; [reflexivity|]. split.
    + cbn [app]. constructor; [reflexivity|]. apply Forall_app. split.
      * apply Forall_forall. intros n Hn. apply in_map_iff in Hn.
        now destruct Hn as (_ & <- & _).
      * exact Hinfo.
    + unfold served in *. cbn [map concat app length].
      rewrite !length_app, length_map, Hlen. lia.
Qed.

End Logs.

(** ** Properties of the node beyond its specification *)

Section Further.

Context {Quaternion : Type}.
Variable setRPY : float -> float -> float -> Quaternion.

(** X1. The published text determines what it was built from: when two
    iterations publish the same text, their counters are equal and so are
    the messages they found (lines 151-153, 163). *)
Theorem published_text_decodes (l1 l2 : Locals Quaternion) (e1 e2 : Spin)
    (w1 w2 : World Quaternion) (data : string) :
  chatter (snd (iteration setRPY l1 e1 w1)) = (chatter w1 ++ [data])%list ->
  chatter (snd (iteration setRPY l2 e2 w2)) = (chatter w2 ++ [data])%list ->
  count l1 = count l2 /\ message w1 = message w2.
Proof.
  rewrite !iteration_run. cbn [snd chatter]. intros H1 H2.
  apply app_inv_head in H1, H2. injection H1 as H1. injection H2 as H2.
  apply composed_inj. now rewrite H1, H2.
Qed.

(** X2. A run of [main] publishes one text per iteration, and as long as
    it has at most 2^32 iterations no text is published twice, whatever
    requests are served (lines 144-153, 163, 179). *)
Theorem published_texts_are_unique (argv : list string)
    (t : Transform Quaternion) (env : list Spin) :
  Z.of_nat (length env) <= 4294967296 ->
  length (chatter (snd (main setRPY argv t env initial_world))) = length env /\
  NoDup (chatter (snd (main setRPY argv t env initial_world))).
Proof.
  intros Hlen. rewrite main_chatter. cbn [chatter initial_world app].
  split; [apply texts_length|].
  apply NoDup_nth_error. intros i j Hi Heq.
  rewrite texts_length in Hi.
  assert (Hj : (j < length env)%nat).
  { rewrite <- (texts_length env 0 (message (@initial_world Quaternion))).
    apply nth_error_Some. rewrite <- Heq. apply nth_error_Some.
    now rewrite texts_length. }
  assert (H0 : Int.in_range 0) by (cbv; split; discriminate).
  rewrite !texts_nth in Heq by assumption.
  injection Heq as Heq. apply composed_inj in Heq. destruct Heq as [Heq _].
  cbn [Z.add] in Heq. apply wrap_inj_below in Heq; lia.
Qed.

(** X3. Until a request has been served the default message is published:
    when no request was served before iteration [T], that iteration
    publishes its sequence number, a space and "Written By Aman Virmani"
    (lines 40, 152, 176). *)
Theorem default_message_until_first_request (argv : list string)
    (t : Transform Quaternion) (env : list Spin) (T : nat) :
  (T < length env)%nat ->
  writes_before env T = [] ->
  nth_error (chatter (snd (main setRPY argv t env initial_world))) T =
  Some (Int.to_string (Int.wrap (Z.of_nat T)) ++ " Written By Aman Virmani")%string.
Proof.
  intros HT Hnone. rewrite main_chatter. cbn [chatter initial_world app].
  rewrite texts_nth; [|cbv; split; discriminate|exact HT].
  rewrite Hnone. reflexivity.
Qed.

(** X4. Requests are answered in the order served, each with its own
    input string and [true], and the message a run leaves behind is the
    input of the last request it served, or the message it started with
    when it served none (lines 48-54, 176). *)
Theorem requests_answered_in_order (argv : list string)
    (t : Transform Quaternion) (env : list Spin) (w : World Quaternion) :
  replies (snd (main setRPY argv t env w)) =
  (replies w ++
   map (fun req => (true, {| modifiedStr := inputStr req |})) (served env))%list /\
  message (snd (main setRPY argv t env w)) =
  last (map inputStr (served env)) (message w).
Proof.
  rewrite main_run, loop_replies, loop_message, check_frequency_run.
  split; reflexivity.
Qed.

(** X5. The frequency argument is read back from its decimal form: for
    every [n] in the range of [int], an argument made of white space, the
    decimal digits of [n] (after a minus sign when negative) and any text
    that does not start with a digit is read as [n]; when [n] is positive
    the node runs at [n] Hz (lines 87-93). *)
Theorem decimal_argument_is_read_back (prog ws rest : string)
    (others : list string) (n : Z) (w : World Quaternion) :
  -2147483648 <= n <= 2147483647 ->
  all_space ws = true ->
  starts_with_digit rest = false ->
  let argv := prog :: (ws ++ Int.to_string n ++ rest)%string :: others in
  requested_frequency argv = n /\
  (0 < n -> fst (check_frequency (requested_frequency argv) w) = n).
Proof.
  intros Hn Hws Hrest. cbv zeta.
  assert (Hreq : requested_frequency
                   (prog :: (ws ++ Int.to_string n ++ rest)%string :: others) = n).
  { unfold requested_frequency. cbn [length nth].
    destruct (Z.gtb_spec (Z.of_nat (S (S (length others)))) 1); [|lia].
    unfold Libc.atoi. rewrite strtol_skip_space by exact Hws.
    apply atoi_to_string; assumption. }
  split; [exact Hreq|]. intros Hpos.
  rewrite Hreq, check_frequency_run. cbn [fst].
  destruct (Z.gtb_spec n 0); [reflexivity | lia].
Qed.

(** X6. The notice of an iteration shows the published text up to the
    first NUL of the message: the sequence number, a space and the message
    cut there; it is the published text itself when the message holds no
    NUL (lines 152-155, 163). *)
Theorem notice_is_text_cut_at_nul (l : Locals Quaternion) (e : Spin)
    (w : World Quaternion) :
  let w' := snd (iteration setRPY l e w) in
  nth_error (rosout w') (length (rosout w)) =
  Some {| level := Info;
          text := (Int.to_string (count l) ++ " " ++ c_str (message w))%string |} /\
  contains Ascii.zero (c_str (message w)) = false /\
  (exists cut, message w = (c_str (message w) ++ cut)%string) /\
  (contains Ascii.zero (message w) = false ->
   exists notice,
     nth_error (rosout w') (length (rosout w)) = Some notice /\
     chatter w' = (chatter w ++ [text notice])%list).
Proof.
  cbv zeta. rewrite iteration_run. cbn [snd rosout chatter].
  rewrite nth_error_app2, Nat.sub_diag by lia. cbn [nth_error].
  rewrite c_str_composed. repeat split.
  - apply c_str_no_nul.
  - apply c_str_prefix.
  - intros Hnul. eexists. split; [reflexivity|]. cbn [text].
    now rewrite (c_str_id _ Hnul).
Qed.

(** X7. Once start-up is over the node logs at info level only: a run adds
    one notice per iteration and one per request served, none of them a
    warning or an error (lines 52, 155). *)
Theorem loop_logs_info_only (argv : list string) (t : Transform Quaternion)
    (env : list Spin) (w : World Quaternion) :
  exists notices,
    rosout (snd (main setRPY argv t env w)) =
    (rosout (snd (check_frequency (requested_frequency argv) w)) ++ notices)%list /\
    Forall (fun n => level n = Info) notices /\
    length notices = (length env + length (served env))%nat.
Proof.
  rewrite main_run. apply loop_rosout.
Qed.

End Further.

(** X1 on two different iterations that publish "2 hi": the third
    iteration of a run in which "hi" was written during the first one, and
    an iteration with another transform object, another clock reading and
    a request of its own, started by hand at the counter 2 in a world with
    another history.  The counter that the run has reached and the message
    it has left are those of the second. *)
Lemma published_text_decodes_witness :
  chatter (snd (iteration Build_Euler
                  (fst (loop Build_Euler (start garbage) hi_run initial_world))
                  (idle epoch)
                  (snd (loop Build_Euler (start garbage) hi_run initial_world))))
  = (chatter (snd (loop Build_Euler (start garbage) hi_run initial_world))
     ++ ["2 hi"])%list /\
  chatter (snd (iteration Build_Euler {| count := 2; transform := garbage' |}
                  {| now := later; pending := [ {| inputStr := "bye" |} ] |}
                  hi_world))
  = (chatter hi_world ++ ["2 hi"])%list /\
  count (fst (loop Build_Euler (start garbage) hi_run initial_world)) =
  count {| count := 2; transform := garbage' |} /\
  message (snd (loop Build_Euler (start garbage) hi_run initial_world)) =
  message hi_world.
Proof.
  assert (H1 : chatter (snd (iteration Build_Euler
                  (fst (loop Build_Euler (start garbage) hi_run initial_world))
                  (idle epoch)
                  (snd (loop Build_Euler (start garbage) hi_run initial_world))))
               = (chatter (snd (loop Build_Euler (start garbage) hi_run
                                  initial_world)) ++ ["2 hi"])%list)
    by reflexivity.
  assert (H2 : chatter (snd (iteration Build_Euler
                  {| count := 2; transform := garbage' |}
                  {| now := later; pending := [ {| inputStr := "bye" |} ] |}
                  hi_world))
               = (chatter hi_world ++ ["2 hi"])%list)
    by reflexivity.
  split; [exact H1|]. split; [exact H2|].
  exact (published_text_decodes Build_Euler _ _ _ _ _ _ "2 hi" H1 H2).
Defined.

(** X2 on the run with two writes. *)
Lemma published_texts_are_unique_witness :
  Z.of_nat (length two_writes) <= 4294967296 /\
  NoDup (chatter (snd (main Build_Euler ["talker"] garbage two_writes
                         initial_world))).
Proof.
  assert (H : Z.of_nat (length two_writes) <= 4294967296) by (cbn; lia).
  split; [exact H|].
  apply (published_texts_are_unique Build_Euler ["talker"] garbage two_writes H).
Defined.

(** X3 on the first iteration of the run with two writes. *)
Lemma default_message_witness :
  (0 < length two_writes)%nat /\
  writes_before two_writes 0 = [] /\
  nth_error (chatter (snd (main Build_Euler ["talker"] garbage two_writes
                             initial_world))) 0 =
  Some "0 Written By Aman Virmani".
Proof.
  assert (H : (0 < length two_writes)%nat) by (cbn; lia).
  split; [exact H|]. split; [reflexivity|].
  apply (default_message_until_first_request Build_Euler ["talker"] garbage
           two_writes 0 H eq_refl).
Defined.

(** X5 on the argument " 20Hz". *)
Lemma decimal_argument_witness :
  requested_frequency ["talker"; " 20Hz"] = 20 /\
  fst (check_frequency (requested_frequency ["talker"; " 20Hz"])
         (@initial_world Euler)) = 20.
Proof.
  assert (Hn : -2147483648 <= 20 <= 2147483647) by lia.
  destruct (decimal_argument_is_read_back "talker" " " "Hz" [] 20
              (@initial_world Euler) Hn eq_refl eq_refl) as [Hreq Hrun].
  split; [exact Hreq | apply Hrun; lia].
Defined.

(** X6 on a message with a NUL in it. *)
Example notice_cut_at_nul :
  rosout (snd (iteration Build_Euler (start garbage) (idle epoch)
                 {| message := String "a" (String Ascii.zero "b");
                    rosout := []; chatter := []; tf_out := [];
                    replies := [] |})) =
  [ {| level := Info; text := "0 a" |} ].
Proof. reflexivity. Qed.

(** X6 on the first iteration from the default message, which holds no
    NUL. *)
Lemma notice_is_text_witness :
  contains Ascii.zero (message (@initial_world Euler)) = false /\
  exists notice,
    nth_error (rosout (snd (iteration Build_Euler (start garbage) (idle epoch)
                              initial_world))) 0 = Some notice /\
    chatter (snd (iteration Build_Euler (start garbage) (idle epoch)
                    initial_world)) = [text notice].
Proof.
  split; [reflexivity|].
  destruct (notice_is_text_cut_at_nul Build_Euler (start garbage) (idle epoch)
              initial_world) as (_ & _ & _ & H).
  apply H. reflexivity.
Defined.
